(** * quart.wrappers.base: the request/websocket base object

  A shallow embedding of [src/quart/wrappers/base.py]
  (class [BaseRequestWebsocket]) together with the pieces of its
  environment that its properties read: Python values and exceptions,
  the string methods it calls, werkzeug's [Headers] and sans-IO request
  initialiser, the ambient [current_app] and the blueprint path
  splitter. *)

From Stdlib Require Import Ascii String.
From stdpp Require Import base option list strings gmap fin_maps.
From Equations Require Import Equations.

Set Default Proof Using "Type".
Local Open Scope string_scope.

(** ** Python values, exceptions and the error monad *)

Module Py.

(** The Python values that flow through the request object untouched:
    entries of the ASGI scope, of the application configuration and of
    the view arguments. *)
#[warnings="-register-all"]
Inductive value :=
| VNone
| VBool (b : bool)
| VInt (n : Z)
| VStr (s : string)
| VBytes (bs : list Byte.byte)
| VTuple (items : list value).

(** The exceptions the modelled code can raise. *)
Inductive exn :=
| KeyError (key : string)
| IndexError
| RoutingError (name : string).

(** A computation either returns or raises. *)
Inductive result (A : Type) :=
| Ok (a : A)
| Raise (e : exn).
Arguments Ok {A} a.
Arguments Raise {A} e.

Definition bind {A B} (k : A -> result B) (m : result A) : result B :=
  match m with
  | Ok a => k a
  | Raise e => Raise e
  end.

Definition returns {A} (m : result A) : Prop := exists a, m = Ok a.

(** [d[k]]: subscription of a dict raises [KeyError] on a missing key. *)
Definition dict_getitem {V} (d : gmap string V) (k : string) : result V :=
  match d !! k with
  | Some v => Ok v
  | None => Raise (KeyError k)
  end.

(** [d.get(k)]: a missing key yields [None], never an exception. *)
Definition dict_get (d : gmap string value) (k : string) : value :=
  match d !! k with
  | Some v => v
  | None => VNone
  end.

(** [l[i]]: subscription of a list raises [IndexError] out of range. *)
Definition list_getitem {A} (l : list A) (i : nat) : result A :=
  match l !! i with
  | Some a => Ok a
  | None => Raise IndexError
  end.

End Py.

#[export] Instance result_ret : MRet Py.result := @Py.Ok.
#[export] Instance result_bind : MBind Py.result := @Py.bind.

(** ** The [str] methods used by the request object *)

Module Str.

(** [c in s] for a one-character needle. *)
Fixpoint contains (c : ascii) (s : string) : bool :=
  match s with
  | EmptyString => false
  | String a s' => if Ascii.eqb a c then true else contains c s'
  end.

(** The split of [s] around its last occurrence of [c]: the text before
    it and the text after it; [None] when [c] does not occur. *)
Fixpoint rcut (c : ascii) (s : string) : option (string * string) :=
  match s with
  | EmptyString => None
  | String a s' =>
      match rcut c s' with
      | Some (pre, post) => Some (String a pre, post)
      | None => if Ascii.eqb a c then Some (EmptyString, s') else None
      end
  end.

(** [s.rsplit(c, 1)]: at most one split, taken from the right. *)
Definition rsplit1 (c : ascii) (s : string) : list string :=
  match rcut c s with
  | Some (pre, post) => [pre; post]
  | None => [s]
  end.

(** [s.rpartition(c)]: the triple [(before, sep, after)] around the last
    occurrence, or two empty strings and [s] when the separator is missing. *)
Definition rpartition (c : ascii) (s : string) : string * string * string :=
  match rcut c s with
  | Some (pre, post) => (pre, String c EmptyString, post)
  | None => (EmptyString, EmptyString, s)
  end.

(** [s.lstrip(c)]: drop the leading run of [c]. *)
Fixpoint lstrip (c : ascii) (s : string) : string :=
  match s with
  | EmptyString => EmptyString
  | String a s' => if Ascii.eqb a c then lstrip c s' else s
  end.

(** [s.rstrip(c)]: drop the trailing run of [c]. *)
Fixpoint rstrip (c : ascii) (s : string) : string :=
  match s with
  | EmptyString => EmptyString
  | String a s' =>
      match rstrip c s' with
      | EmptyString => if Ascii.eqb a c then EmptyString else String a EmptyString
      | t => String a t
      end
  end.

Definition is_lower (a : ascii) : bool :=
  (97 <=? nat_of_ascii a)%nat && (nat_of_ascii a <=? 122)%nat.
Definition is_upper (a : ascii) : bool :=
  (65 <=? nat_of_ascii a)%nat && (nat_of_ascii a <=? 90)%nat.

Definition upper_char (a : ascii) : ascii :=
  if is_lower a then ascii_of_nat (nat_of_ascii a - 32) else a.
Definition lower_char (a : ascii) : ascii :=
  if is_upper a then ascii_of_nat (nat_of_ascii a + 32) else a.

Fixpoint map_chars (f : ascii -> ascii) (s : string) : string :=
  match s with
  | EmptyString => EmptyString
  | String a s' => String (f a) (map_chars f s')
  end.

(** [s.upper()] and [s.lower()] on ASCII text. *)
Definition upper : string -> string := map_chars upper_char.
Definition lower : string -> string := map_chars lower_char.

(** [s.endswith(c)] for a one-character suffix. *)
Fixpoint endswith (c : ascii) (s : string) : bool :=
  match s with
  | EmptyString => false
  | String a EmptyString => Ascii.eqb a c
  | String _ s' => endswith c s'
  end.

(** [s.count(c)]: the number of occurrences of a character. *)
Fixpoint count (c : ascii) (s : string) : nat :=
  match s with
  | EmptyString => 0
  | String a s' => (if Ascii.eqb a c then 1 else 0) + count c s'
  end.

(** [c * n]: the string of [n] copies of a character. *)
Fixpoint repeat (c : ascii) (n : nat) : string :=
  match n with
  | 0 => EmptyString
  | S n' => String c (repeat c n')
  end.

End Str.

(** ** werkzeug: the header collection and the sans-IO request

    [Headers] and [SansIORequest] come from the werkzeug library, which
    [base.py] imports.  Only what the constructor of the request object
    calls is embedded: [Headers.get] and [SansIORequest.__init__]. *)

Module Werkzeug.

(** An ordered multimap of header names to values. *)
Abbreviation Headers := (list (string * string)).

(** [Headers.get(key)]: the value of the first entry whose name equals
    [key] up to letter case, [None] when there is none. *)
Fixpoint headers_get (h : Headers) (key : string) : option string :=
  match h with
  | [] => None
  | (k, v) :: h' =>
      if String.eqb (Str.lower k) (Str.lower key) then Some v
      else headers_get h' key
  end.

(** The attributes [SansIORequest.__init__] assigns. *)
Record SansIORequest := {
  method : string;
  scheme : string;
  server : Py.value;
  root_path : string;
  path : string;
  query_string : list Byte.byte;
  headers : Headers;
  remote_addr : option string
}.

(** [SansIORequest.__init__(method, scheme, server, root_path, path,
    query_string, headers, remote_addr)] of [werkzeug/sansio/request.py]:
    [self.method = method.upper()], [self.scheme = scheme],
    [self.server = server], [self.root_path = root_path.rstrip("/")],
    [self.path = "/" + path.lstrip("/")],
    [self.query_string = query_string], [self.headers = headers],
    [self.remote_addr = remote_addr].  None of these statements raises on
    arguments of the declared types. *)
Definition sansio_init (method scheme : string) (server : Py.value)
    (root_path path : string) (query_string : list Byte.byte)
    (headers : Headers) (remote_addr : option string)
  : Py.result SansIORequest :=
  mret {| method := Str.upper method;
          scheme := scheme;
          server := server;
          root_path := Str.rstrip "/" root_path;
          path := String "/" (Str.lstrip "/" path);
          query_string := query_string;
          headers := headers;
          remote_addr := remote_addr |}.

End Werkzeug.

(** ** quart.routing: the matched rule *)

Module Routing.

(** A [QuartRule] as far as the request object looks at it: its
    [endpoint]; the URL pattern and the websocket flag stand for the rest
    of the rule. *)
Record QuartRule := {
  rule : string;
  endpoint : string;
  websocket : bool
}.

End Routing.

(** ** quart.globals: the ambient application *)

Module Globals.

(** Modelled from the spec: [quart/globals.py] and the application's
    configuration class are not part of the sources at hand.  An
    application carries a configuration, a dict from setting names to
    values. *)
Record Quart := {
  config : gmap string Py.value
}.

(** Modelled from the spec: [current_app] is the application of the active
    application context, and is falsy when no context is active.  The
    ambient context is passed explicitly: [None] means no context. *)
Abbreviation current_app := (option Quart).

End Globals.

(** ** quart.helpers: the blueprint path splitter *)

Module Helpers.

(** Case analysis on [x] that remembers the equation with the outcome. *)
Definition inspect {A : Type} (x : A) : { y : A | x = y } := exist _ x eq_refl.

(** Modelled from the spec: [quart/helpers.py] is not part of the sources
    at hand.  The splitter maps a dotted blueprint name to the chain of
    blueprint names from the current blueprint up through each ancestor:
    the name itself, followed, when it has a dot, by the chain of its
    prefix before the last dot. *)
Equations? _split_blueprint_path (name : string) : list string
  by wf (String.length name) lt :=
  _split_blueprint_path name with inspect (Str.contains "." name) => {
    | exist _ true Hdot =>
        name :: _split_blueprint_path (Str.rpartition "." name).1.1
    | exist _ false _ => [name] }.
Proof.
  clear _split_blueprint_path.
  assert (Hcut : forall s,
    (Str.contains "." s = false -> Str.rcut "." s = None) /\
    (Str.contains "." s = true -> exists pre post,
       Str.rcut "." s = Some (pre, post) /\
       String.length pre < String.length s)).
  { induction s as [|a s [IHf IHt]]; simpl; [split; [done|discriminate]|].
    destruct (Str.contains "." s).
    - destruct (IHt eq_refl) as (pre & post & -> & Hlt).
      split; [destruct (Ascii.eqb a "."); discriminate|].
      intros _. eexists _, _. split; [done|]. simpl. lia.
    - rewrite (IHf eq_refl). destruct (Ascii.eqb a ".").
      + split; [discriminate|]. intros _. eexists _, _. split; [done|].
        simpl. lia.
      + split; [done|discriminate]. }
  destruct (Hcut name) as [_ Ht].
  destruct (Ht Hdot) as (pre & post & E & Hlt).
  unfold Str.rpartition. rewrite E. exact Hlt.
Qed.

End Helpers.

(** ** quart.wrappers.base: [BaseRequestWebsocket] *)

Module Base.

Import Py.

Abbreviation ViewArgs := (gmap string Py.value).
Abbreviation WWWScope := (gmap string Py.value).

(** An instance of the class.  [base] holds the attributes assigned by the
    inherited initialiser.  [routing_exception], [url_rule] and
    [view_args] are class attributes: an instance has an entry of its own
    ([own_...] is [Some v]) only after an assignment to it, and reads fall
    back to the class otherwise. *)
Record BaseRequestWebsocket := {
  base : Werkzeug.SansIORequest;
  http_version : string;
  scope : WWWScope;
  own_routing_exception : option (option Py.exn);
  own_url_rule : option (option Routing.QuartRule);
  own_view_args : option (option ViewArgs)
}.

(** The class-level defaults (lines 30-32). *)
Definition class_routing_exception : option Py.exn := None.
Definition class_url_rule : option Routing.QuartRule := None.
Definition class_view_args : option ViewArgs := None.

(** Attribute reads: the instance's own entry, else the class attribute. *)
Definition routing_exception (self : BaseRequestWebsocket) : option Py.exn :=
  match own_routing_exception self with
  | Some v => v
  | None => class_routing_exception
  end.

Definition url_rule (self : BaseRequestWebsocket) : option Routing.QuartRule :=
  match own_url_rule self with
  | Some v => v
  | None => class_url_rule
  end.

Definition view_args (self : BaseRequestWebsocket) : option ViewArgs :=
  match own_view_args self with
  | Some v => v
  | None => class_view_args
  end.

(** [__init__]: the inherited initialiser gets [scope.get("server")] as
    the server and [headers.get("Remote-Addr")] as the remote address;
    then [http_version] and [scope] are stored. *)
Definition __init__ (method scheme path : string)
    (query_string : list Byte.byte) (headers : Werkzeug.Headers)
    (root_path http_version : string) (scope : WWWScope)
  : result BaseRequestWebsocket :=
  b ← Werkzeug.sansio_init
        method
        scheme
        (dict_get scope "server")
        root_path
        path
        query_string
        headers
        (Werkzeug.headers_get headers "Remote-Addr");
  mret {| base := b;
          http_version := http_version;
          scope := scope;
          own_routing_exception := None;
          own_url_rule := None;
          own_view_args := None |}.

(** [max_content_length]: the [MAX_CONTENT_LENGTH] entry of the current
    application's configuration, [None] without a current application. *)
Definition max_content_length (current_app : Globals.current_app)
    (self : BaseRequestWebsocket) : result Py.value :=
  match current_app with
  | Some app => dict_getitem (Globals.config app) "MAX_CONTENT_LENGTH"
  | None => mret VNone
  end.

Definition endpoint (self : BaseRequestWebsocket) : result (option string) :=
  match url_rule self with
  | Some r => mret (Some (Routing.endpoint r))
  | None => mret None
  end.

Definition blueprint (self : BaseRequestWebsocket) : result (option string) :=
  e ← endpoint self;
  match e with
  | Some name =>
      if Str.contains "." name
      then p ← list_getitem (Str.rsplit1 "." name) 0; mret (Some p)
      else mret None
  | None => mret None
  end.

Definition blueprints (self : BaseRequestWebsocket) : result (list string) :=
  b ← blueprint self;
  match b with
  | None => mret []
  | Some name => mret (Helpers._split_blueprint_path name)
  end.

Definition script_root (self : BaseRequestWebsocket) : result string :=
  mret (Werkzeug.root_path (base self)).

(** *** Assignments by the resolver

    The resolver is outside this class; what it does to a request is
    attribute assignment, which always writes the instance's own entry. *)

Definition set_url_rule (v : option Routing.QuartRule)
    (self : BaseRequestWebsocket) : BaseRequestWebsocket :=
  {| base := base self;
     http_version := http_version self;
     scope := scope self;
     own_routing_exception := own_routing_exception self;
     own_url_rule := Some v;
     own_view_args := own_view_args self |}.

Definition set_view_args (v : option ViewArgs)
    (self : BaseRequestWebsocket) : BaseRequestWebsocket :=
  {| base := base self;
     http_version := http_version self;
     scope := scope self;
     own_routing_exception := own_routing_exception self;
     own_url_rule := own_url_rule self;
     own_view_args := Some v |}.

Definition set_routing_exception (v : option Py.exn)
    (self : BaseRequestWebsocket) : BaseRequestWebsocket :=
  {| base := base self;
     http_version := http_version self;
     scope := scope self;
     own_routing_exception := Some v;
     own_url_rule := own_url_rule self;
     own_view_args := own_view_args self |}.

(** *** The object store

    Requests are objects with identity: the store maps references to
    instances, construction allocates a reference that is not in use, and
    an assignment goes through a reference. *)

Abbreviation ref := positive.
Abbreviation store := (gmap positive BaseRequestWebsocket).

Definition new (h : store) (method scheme path : string)
    (query_string : list Byte.byte) (headers : Werkzeug.Headers)
    (root_path http_version : string) (scope : WWWScope)
  : result (ref * store) :=
  self ← __init__ method scheme path query_string headers root_path
                  http_version scope;
  let l := fresh (dom h) in
  mret (l, <[l := self]> h).

(** [request.url_rule = rule; request.view_args = args] on a match. *)
Definition resolver_match (l : ref) (r : Routing.QuartRule) (args : ViewArgs)
    (h : store) : store :=
  alter (fun self => set_view_args (Some args) (set_url_rule (Some r) self)) l h.

(** [request.routing_exception = error] on a failed match. *)
Definition resolver_fail (l : ref) (e : Py.exn) (h : store) : store :=
  alter (set_routing_exception (Some e)) l h.

(** Reading a property of the object behind a reference. *)
Definition read {A} (h : store) (l : ref) (prop : BaseRequestWebsocket -> A)
  : option A :=
  prop <$> h !! l.

End Base.

(** ** Sample data used by the unit checks *)

Module Fixtures.

Import Py.

Definition rule_list : Routing.QuartRule :=
  {| Routing.rule := "/admin/users/";
     Routing.endpoint := "admin.users.list";
     Routing.websocket := false |}.

Definition rule_index : Routing.QuartRule :=
  {| Routing.rule := "/";
     Routing.endpoint := "index";
     Routing.websocket := false |}.

Definition rule_nested : Routing.QuartRule :=
  {| Routing.rule := "/a/b/c";
     Routing.endpoint := "a.b.c";
     Routing.websocket := false |}.

Definition rule_dot_first : Routing.QuartRule :=
  {| Routing.rule := "/list";
     Routing.endpoint := ".list";
     Routing.websocket := true |}.

Definition no_args : Base.ViewArgs := ∅.

Definition user_args : Base.ViewArgs := {[ "user_id" := VInt 7 ]}.

(** A scope without a ["server"] entry. *)
Definition scope_bare : Base.WWWScope := {[ "type" := VStr "http" ]}.

Definition scope_served : Base.WWWScope :=
  {[ "type" := VStr "http";
     "server" := VTuple [VStr "127.0.0.1"; VInt 8000] ]}.

Definition headers_host : Werkzeug.Headers := [("Host", "example.org")].

Definition headers_proxied : Werkzeug.Headers :=
  [("Host", "example.org"); ("remote-addr", "10.0.0.1")].

(** The request built from method [get], scheme [http], path [/], an
    empty query string, [headers_host], an empty root path, HTTP version
    [1.1] and [scope_bare]. *)
Definition request_plain : Base.BaseRequestWebsocket :=
  {| Base.base :=
       {| Werkzeug.method := "GET";
          Werkzeug.scheme := "http";
          Werkzeug.server := VNone;
          Werkzeug.root_path := EmptyString;
          Werkzeug.path := "/";
          Werkzeug.query_string := [];
          Werkzeug.headers := headers_host;
          Werkzeug.remote_addr := None |};
     Base.http_version := "1.1";
     Base.scope := scope_bare;
     Base.own_routing_exception := None;
     Base.own_url_rule := None;
     Base.own_view_args := None |}.

Definition app_limited : Globals.Quart :=
  {| Globals.config := {[ "MAX_CONTENT_LENGTH" := VInt 1048576 ]} |}.

Definition app_unconfigured : Globals.Quart :=
  {| Globals.config := ∅ |}.

(** A store holding one request. *)
Definition store_one : Base.store := {[ 1%positive := request_plain ]}.

End Fixtures.

(** * Properties *)

(** ** Unit checks of the string methods *)

Example split_nested :
  Helpers._split_blueprint_path "a.b.c" = ["a.b.c"; "a.b"; "a"].
Proof. reflexivity. Qed.

Example endswith_slash : Str.endswith "/" "/api/" = true.
Proof. reflexivity. Qed.
Example headers_get_any_case :
  Werkzeug.headers_get [("Host", "h"); ("remote-addr", "10.0.0.1")] "Remote-Addr"
  = Some "10.0.0.1".
Proof. reflexivity. Qed.

(** ** Facts about splitting at the last separator *)

Section StrFacts.
Variable c : ascii.

Lemma rcut_None s : Str.contains c s = false -> Str.rcut c s = None.
Proof.
  induction s as [|a s IH]; simpl; [done|].
  destruct (Ascii.eqb a c); [discriminate|].
  intros H. by rewrite (IH H).
Qed.

Lemma rcut_Some s pre post :
  Str.rcut c s = Some (pre, post) ->
  s = pre +:+ String c post /\ Str.contains c post = false.
Proof.
  revert pre. induction s as [|a s IH]; intros pre; simpl; [discriminate|].
  destruct (Str.rcut c s) as [[p q]|] eqn:E.
  - intros [= <- <-]. destruct (IH _ eq_refl) as [-> Hq]. by split.
  - destruct (Ascii.eqb a c) eqn:Ea; [|discriminate].
    intros [= <- <-]. apply Ascii.eqb_eq in Ea as ->. split; [done|].
    destruct (Str.contains c s) eqn:Hc; [|done].
    exfalso. clear IH. induction s as [|b s IHs]; simpl in *; [done|].
    destruct (Str.rcut c s) as [[p q]|]; [done|].
    destruct (Ascii.eqb b c); [done|]. by apply IHs.
Qed.

Lemma rcut_is_Some s :
  Str.contains c s = true -> exists pre post, Str.rcut c s = Some (pre, post).
Proof.
  induction s as [|a s IH]; simpl; [discriminate|].
  destruct (Str.rcut c s) as [[p q]|] eqn:E; [eauto|].
  destruct (Ascii.eqb a c); [eauto|].
  intros H. destruct (IH H) as (? & ? & ?). discriminate.
Qed.

Lemma rcut_app pre post :
  Str.contains c post = false ->
  Str.rcut c (pre +:+ String c post) = Some (pre, post).
Proof.
  intros Hpost. induction pre as [|a pre IH]; simpl.
  - by rewrite (rcut_None _ Hpost), Ascii.eqb_refl.
  - by rewrite IH.
Qed.

Lemma contains_app pre post : Str.contains c (pre +:+ String c post) = true.
Proof.
  induction pre as [|a pre IH]; simpl.
  - by rewrite Ascii.eqb_refl.
  - by destruct (Ascii.eqb a c).
Qed.

Lemma rstrip_fixed s : Str.endswith c s = false -> Str.rstrip c s = s.
Proof.
  induction s as [|a s IH]; [done|].
  destruct s as [|b s].
  - simpl. by intros ->.
  - intros H. change (Str.endswith c (String b s) = false) in H.
    specialize (IH H). cbn [Str.rstrip] in *. by rewrite IH.
Qed.

Lemma rstrip_endswith s : Str.endswith c (Str.rstrip c s) = false.
Proof.
  induction s as [|a s IH]; [done|].
  cbn [Str.rstrip]. destruct (Str.rstrip c s) as [|b t] eqn:E.
  - destruct (Ascii.eqb a c) eqn:Ea; [done|]. simpl. by rewrite Ea.
  - exact IH.
Qed.

End StrFacts.

(** ** The derived properties *)

Import Py.

Lemma endpoint_matched self r :
  Base.url_rule self = Some r ->
  Base.endpoint self = Ok (Some (Routing.endpoint r)).
Proof. intros H. unfold Base.endpoint. by rewrite H. Qed.

Lemma endpoint_unmatched self :
  Base.url_rule self = None -> Base.endpoint self = Ok None.
Proof. intros H. unfold Base.endpoint. by rewrite H. Qed.

(** [blueprint] in terms of the split at the last dot. *)
Lemma blueprint_matched self r :
  Base.url_rule self = Some r ->
  Base.blueprint self =
    match Str.rcut "." (Routing.endpoint r) with
    | Some (pre, _) => Ok (Some pre)
    | None => Ok None
    end.
Proof.
  intros H. unfold Base.blueprint. rewrite (endpoint_matched _ _ H). simpl.
  destruct (Str.contains "." (Routing.endpoint r)) eqn:Hc.
  - destruct (rcut_is_Some _ _ Hc) as (pre & post & E).
    unfold Str.rsplit1. by rewrite E.
  - by rewrite (rcut_None _ _ Hc).
Qed.

Lemma blueprint_unmatched self :
  Base.url_rule self = None -> Base.blueprint self = Ok None.
Proof.
  intros H. unfold Base.blueprint. by rewrite (endpoint_unmatched _ H).
Qed.

Lemma blueprints_unmatched self :
  Base.url_rule self = None -> Base.blueprints self = Ok [].
Proof.
  intros H. unfold Base.blueprints. by rewrite (blueprint_unmatched _ H).
Qed.

Lemma split_blueprint_path_nodot name :
  Str.contains "." name = false -> Helpers._split_blueprint_path name = [name].
Proof.
  intros H. rewrite Helpers._split_blueprint_path_equation_1.
  destruct (Helpers.inspect (Str.contains "." name)) as [[] Hb]; [congruence|].
  reflexivity.
Qed.

Lemma split_blueprint_path_dot name :
  Str.contains "." name = true ->
  Helpers._split_blueprint_path name =
    name :: Helpers._split_blueprint_path (Str.rpartition "." name).1.1.
Proof.
  intros H. rewrite Helpers._split_blueprint_path_equation_1 at 1.
  destruct (Helpers.inspect (Str.contains "." name)) as [[] Hb]; [|congruence].
  reflexivity.
Qed.

(** C2: with a matched rule of endpoint [e], [blueprint] is the part of
    [e] before its last dot when [e] has a dot ([e] is [pre], a dot and a
    dot-free rest, and the result is [pre]), and is absent when [e] has no
    dot. *)
Theorem blueprint_is_prefix_before_last_dot self r
    (Hrule : Base.url_rule self = Some r) :
  (Str.contains "." (Routing.endpoint r) = true ->
     exists pre post,
       Routing.endpoint r = pre +:+ "." +:+ post /\
       Str.contains "." post = false /\
       Base.blueprint self = Ok (Some pre)) /\
  (Str.contains "." (Routing.endpoint r) = false ->
     Base.blueprint self = Ok None).
Proof.
  rewrite (blueprint_matched _ _ Hrule). split; intros Hc.
  - destruct (rcut_is_Some _ _ Hc) as (pre & post & E).
    exists pre, post. rewrite E.
    by destruct (rcut_Some _ _ _ _ E) as [-> ->].
  - by rewrite (rcut_None _ _ Hc).
Qed.

(** The decomposition around the last dot is unique, so the prefix above
    is the only candidate. *)
Lemma blueprint_of_decomposition self r pre post :
  Base.url_rule self = Some r ->
  Routing.endpoint r = pre +:+ "." +:+ post ->
  Str.contains "." post = false ->
  Base.blueprint self = Ok (Some pre).
Proof.
  intros Hrule Hend Hpost. rewrite (blueprint_matched _ _ Hrule), Hend.
  change ("." +:+ post) with (String "." post).
  by rewrite (rcut_app "." pre post Hpost).
Qed.

(** C8: an endpoint that starts with its only dot has the empty string
    as blueprint, a value and not an absence, and [blueprints] is what the
    splitter returns for the empty string, not the empty list. *)
Theorem blueprint_empty_prefix_is_present self r rest
    (Hrule : Base.url_rule self = Some r)
    (Hend : Routing.endpoint r = String "." rest)
    (Hrest : Str.contains "." rest = false) :
  Base.blueprint self = Ok (Some EmptyString) /\
  Base.blueprints self = Ok (Helpers._split_blueprint_path EmptyString) /\
  Base.blueprints self <> Ok [].
Proof.
  assert (Hb : Base.blueprint self = Ok (Some EmptyString)).
  { by apply (blueprint_of_decomposition self r EmptyString rest). }
  split; [done|]. unfold Base.blueprints. rewrite Hb. simpl.
  split; [done|]. by rewrite split_blueprint_path_nodot.
Qed.

(** C10: requests whose matched rules carry the same endpoint string
    agree on [blueprint] and on [blueprints], whatever their other
    attributes are. *)
Theorem blueprint_depends_only_on_endpoint self1 self2 r1 r2
    (Hrule1 : Base.url_rule self1 = Some r1)
    (Hrule2 : Base.url_rule self2 = Some r2)
    (Hend : Routing.endpoint r1 = Routing.endpoint r2) :
  Base.blueprint self1 = Base.blueprint self2 /\
  Base.blueprints self1 = Base.blueprints self2.
Proof.
  assert (Hb : Base.blueprint self1 = Base.blueprint self2).
  { rewrite (blueprint_matched _ _ Hrule1), (blueprint_matched _ _ Hrule2).
    by rewrite Hend. }
  split; [done|]. unfold Base.blueprints. by rewrite Hb.
Qed.

Example init_plain :
  Base.__init__ "get" "http" "/" [] Fixtures.headers_host EmptyString "1.1"
    Fixtures.scope_bare = Ok Fixtures.request_plain.
Proof. reflexivity. Qed.

Example init_served_proxied :
  (fun self => (Werkzeug.server (Base.base self),
                Werkzeug.remote_addr (Base.base self)))
    <$> (match Base.__init__ "GET" "https" "x" [] Fixtures.headers_proxied
                 "/api" "2" Fixtures.scope_served with
         | Ok self => Some self
         | Raise _ => None
         end)
  = Some (VTuple [VStr "127.0.0.1"; VInt 8000], Some "10.0.0.1").
Proof. reflexivity. Qed.

(** C4: without a current application [max_content_length] is [None];
    with a current application whose configuration maps
    [MAX_CONTENT_LENGTH] to the integer [n], it is [n]. *)
Theorem max_content_length_reads_config self app n
    (Hkey : Globals.config app !! "MAX_CONTENT_LENGTH" = Some (VInt n)) :
  Base.max_content_length None self = Ok VNone /\
  Base.max_content_length (Some app) self = Ok (VInt n).
Proof.
  split; [done|]. unfold Base.max_content_length, dict_getitem.
  by rewrite Hkey.
Qed.

Lemma max_content_length_reads_config_witness :
  Globals.config Fixtures.app_limited !! "MAX_CONTENT_LENGTH"
    = Some (VInt 1048576) /\
  (Base.max_content_length None Fixtures.request_plain = Ok VNone /\
   Base.max_content_length (Some Fixtures.app_limited) Fixtures.request_plain
     = Ok (VInt 1048576)).
Proof.
  split; [reflexivity|].
  apply (max_content_length_reads_config
           Fixtures.request_plain Fixtures.app_limited 1048576).
  reflexivity.
Defined.

(** C6 as stated fails: with a current application whose configuration
    has no [MAX_CONTENT_LENGTH] entry, [max_content_length] raises
    [KeyError]. *)
Lemma max_content_length_raises_without_key :
  Base.__init__ "get" "http" "/" [] Fixtures.headers_host EmptyString "1.1"
    Fixtures.scope_bare = Ok Fixtures.request_plain /\
  Base.max_content_length (Some Fixtures.app_unconfigured)
    Fixtures.request_plain = Raise (KeyError "MAX_CONTENT_LENGTH") /\
  ~ returns (Base.max_content_length (Some Fixtures.app_unconfigured)
               Fixtures.request_plain).
Proof.
  split; [reflexivity|]. split; [reflexivity|].
  intros [v Hv]. discriminate Hv.
Qed.

(** C6, amended: [endpoint], [blueprint], [blueprints] and [script_root]
    return a value in every state of the request, and
    [max_content_length] returns a value whenever the current
    application, if there is one, has a [MAX_CONTENT_LENGTH] entry in its
    configuration. *)
Theorem derived_properties_return self (current_app : Globals.current_app)
    (Hcfg : forall app, current_app = Some app ->
              is_Some (Globals.config app !! "MAX_CONTENT_LENGTH")) :
  returns (Base.max_content_length current_app self) /\
  returns (Base.endpoint self) /\
  returns (Base.blueprint self) /\
  returns (Base.blueprints self) /\
  returns (Base.script_root self).
Proof.
  assert (He : returns (Base.endpoint self)).
  { unfold Base.endpoint. destruct (Base.url_rule self); by eexists. }
  assert (Hb : returns (Base.blueprint self)).
  { destruct (Base.url_rule self) as [r|] eqn:Hr.
    - rewrite (blueprint_matched _ _ Hr).
      destruct (Str.rcut "." (Routing.endpoint r)) as [[pre post]|];
        by eexists.
    - rewrite (blueprint_unmatched _ Hr). by eexists. }
  repeat split; try done.
  - unfold Base.max_content_length, dict_getitem.
    destruct current_app as [app|]; [|by eexists].
    destruct (Hcfg app eq_refl) as [v ->]. by eexists.
  - unfold Base.blueprints. destruct Hb as [[name|] ->]; by eexists.
  - by eexists.
Qed.

Lemma derived_properties_return_witness :
  (forall app, Some Fixtures.app_limited = Some app ->
     is_Some (Globals.config app !! "MAX_CONTENT_LENGTH")) /\
  (returns (Base.max_content_length (Some Fixtures.app_limited)
              (Base.set_url_rule (Some Fixtures.rule_list)
                 Fixtures.request_plain)) /\
   returns (Base.endpoint
              (Base.set_url_rule (Some Fixtures.rule_list)
                 Fixtures.request_plain)) /\
   returns (Base.blueprint
              (Base.set_url_rule (Some Fixtures.rule_list)
                 Fixtures.request_plain)) /\
   returns (Base.blueprints
              (Base.set_url_rule (Some Fixtures.rule_list)
                 Fixtures.request_plain)) /\
   returns (Base.script_root
              (Base.set_url_rule (Some Fixtures.rule_list)
                 Fixtures.request_plain))).
Proof.
  assert (H : forall app, Some Fixtures.app_limited = Some app ->
                is_Some (Globals.config app !! "MAX_CONTENT_LENGTH")).
  { intros app [= <-]. exists (VInt 1048576). reflexivity. }
  split; [exact H|].
  exact (derived_properties_return
           (Base.set_url_rule (Some Fixtures.rule_list) Fixtures.request_plain)
           (Some Fixtures.app_limited) H).
Defined.

Lemma blueprint_is_prefix_before_last_dot_witness :
  Base.url_rule (Base.set_url_rule (Some Fixtures.rule_nested)
                   Fixtures.request_plain) = Some Fixtures.rule_nested /\
  ((Str.contains "." (Routing.endpoint Fixtures.rule_nested) = true ->
      exists pre post,
        Routing.endpoint Fixtures.rule_nested = pre +:+ "." +:+ post /\
        Str.contains "." post = false /\
        Base.blueprint (Base.set_url_rule (Some Fixtures.rule_nested)
                          Fixtures.request_plain) = Ok (Some pre)) /\
   (Str.contains "." (Routing.endpoint Fixtures.rule_nested) = false ->
      Base.blueprint (Base.set_url_rule (Some Fixtures.rule_nested)
                        Fixtures.request_plain) = Ok None)).
Proof.
  split; [reflexivity|].
  apply (blueprint_is_prefix_before_last_dot
           (Base.set_url_rule (Some Fixtures.rule_nested) Fixtures.request_plain)
           Fixtures.rule_nested).
  reflexivity.
Defined.

Example blueprint_nested :
  Base.blueprint (Base.set_url_rule (Some Fixtures.rule_nested)
                    Fixtures.request_plain) = Ok (Some "a.b").
Proof. reflexivity. Qed.

Lemma blueprint_empty_prefix_is_present_witness :
  (Base.url_rule (Base.set_url_rule (Some Fixtures.rule_dot_first)
                    Fixtures.request_plain) = Some Fixtures.rule_dot_first /\
   Routing.endpoint Fixtures.rule_dot_first = String "." "list" /\
   Str.contains "." "list" = false) /\
  (Base.blueprint (Base.set_url_rule (Some Fixtures.rule_dot_first)
                     Fixtures.request_plain) = Ok (Some EmptyString) /\
   Base.blueprints (Base.set_url_rule (Some Fixtures.rule_dot_first)
                      Fixtures.request_plain)
     = Ok (Helpers._split_blueprint_path EmptyString) /\
   Base.blueprints (Base.set_url_rule (Some Fixtures.rule_dot_first)
                      Fixtures.request_plain) <> Ok []).
Proof.
  split; [repeat split; reflexivity|].
  apply (blueprint_empty_prefix_is_present
           (Base.set_url_rule (Some Fixtures.rule_dot_first)
              Fixtures.request_plain)
           Fixtures.rule_dot_first "list"); reflexivity.
Defined.

Example blueprints_dot_first :
  Base.blueprints (Base.set_url_rule (Some Fixtures.rule_dot_first)
                     Fixtures.request_plain) = Ok [EmptyString].
Proof. reflexivity. Qed.

Lemma blueprint_depends_only_on_endpoint_witness :
  (Base.url_rule (Base.set_url_rule (Some Fixtures.rule_list)
                    Fixtures.request_plain) = Some Fixtures.rule_list /\
   Base.url_rule
     (Base.set_view_args (Some Fixtures.user_args)
        (Base.set_url_rule
           (Some {| Routing.rule := "/other";
                    Routing.endpoint := "admin.users.list";
                    Routing.websocket := true |})
           Fixtures.request_plain))
     = Some {| Routing.rule := "/other";
               Routing.endpoint := "admin.users.list";
               Routing.websocket := true |} /\
   Routing.endpoint Fixtures.rule_list
     = Routing.endpoint {| Routing.rule := "/other";
                           Routing.endpoint := "admin.users.list";
                           Routing.websocket := true |}) /\
  (Base.blueprint (Base.set_url_rule (Some Fixtures.rule_list)
                     Fixtures.request_plain)
     = Base.blueprint
         (Base.set_view_args (Some Fixtures.user_args)
            (Base.set_url_rule
               (Some {| Routing.rule := "/other";
                        Routing.endpoint := "admin.users.list";
                        Routing.websocket := true |})
               Fixtures.request_plain)) /\
   Base.blueprints (Base.set_url_rule (Some Fixtures.rule_list)
                      Fixtures.request_plain)
     = Base.blueprints
         (Base.set_view_args (Some Fixtures.user_args)
            (Base.set_url_rule
               (Some {| Routing.rule := "/other";
                        Routing.endpoint := "admin.users.list";
                        Routing.websocket := true |})
               Fixtures.request_plain))).
Proof.
  split; [repeat split; reflexivity|].
  apply (blueprint_depends_only_on_endpoint
           (Base.set_url_rule (Some Fixtures.rule_list) Fixtures.request_plain)
           (Base.set_view_args (Some Fixtures.user_args)
              (Base.set_url_rule
                 (Some {| Routing.rule := "/other";
                          Routing.endpoint := "admin.users.list";
                          Routing.websocket := true |})
                 Fixtures.request_plain))
           Fixtures.rule_list
           {| Routing.rule := "/other";
              Routing.endpoint := "admin.users.list";
              Routing.websocket := true |}); reflexivity.
Defined.

(** ** Construction, the object store and the resolver *)

Lemma headers_get_absent (h : Werkzeug.Headers) key :
  (forall k v, (k, v) ∈ h -> Str.lower k <> Str.lower key) ->
  Werkzeug.headers_get h key = None.
Proof.
  induction h as [|[k v] h IH]; intros Hno; simpl; [done|].
  destruct (String.eqb (Str.lower k) (Str.lower key)) eqn:E.
  - apply String.eqb_eq in E. destruct (Hno k v); [apply elem_of_cons; auto|done].
  - apply IH. intros k' v' Hin. apply Hno with v'. apply elem_of_cons. auto.
Qed.

Lemma read_alter_same {A} (h : Base.store) l f
    (prop : Base.BaseRequestWebsocket -> A) self :
  h !! l = Some self -> Base.read (alter f l h) l prop = Some (prop (f self)).
Proof. intros H. unfold Base.read. by rewrite lookup_alter_eq, H. Qed.

Lemma read_alter_other {A} (h : Base.store) l l' f
    (prop : Base.BaseRequestWebsocket -> A) :
  l <> l' -> Base.read (alter f l h) l' prop = Base.read h l' prop.
Proof. intros H. unfold Base.read. by rewrite lookup_alter_ne. Qed.

Section Construction.

Variable h : Base.store.
Variables method scheme path : string.
Variable query_string : list Byte.byte.
Variable headers : Werkzeug.Headers.
Variables root_path http_version : string.
Variable scope : Base.WWWScope.

(** The object [__init__] builds from the constructor's arguments. *)
Let built : Base.BaseRequestWebsocket :=
  {| Base.base :=
       {| Werkzeug.method := Str.upper method;
          Werkzeug.scheme := scheme;
          Werkzeug.server := dict_get scope "server";
          Werkzeug.root_path := Str.rstrip "/" root_path;
          Werkzeug.path := String "/" (Str.lstrip "/" path);
          Werkzeug.query_string := query_string;
          Werkzeug.headers := headers;
          Werkzeug.remote_addr := Werkzeug.headers_get headers "Remote-Addr" |};
     Base.http_version := http_version;
     Base.scope := scope;
     Base.own_routing_exception := None;
     Base.own_url_rule := None;
     Base.own_view_args := None |}.

Lemma init_returns :
  Base.__init__ method scheme path query_string headers root_path
    http_version scope = Ok built.
Proof. reflexivity. Qed.

Lemma new_returns (h0 : Base.store) :
  Base.new h0 method scheme path query_string headers root_path
    http_version scope
  = Ok (fresh (dom h0), <[fresh (dom h0) := built]> h0).
Proof. reflexivity. Qed.

Lemma new_is_fresh (h0 : Base.store) : h0 !! fresh (dom h0) = None.
Proof. apply not_elem_of_dom, is_fresh. Qed.

(** C1: a freshly constructed request, before any assignment by the
    resolver, has no matched rule, no view arguments and no routing
    exception; its [endpoint] and [blueprint] are absent and its
    [blueprints] is the empty list. *)
Theorem fresh_request_is_unmatched :
  exists l h',
    Base.new h method scheme path query_string headers root_path
      http_version scope = Ok (l, h') /\
    h !! l = None /\
    Base.read h' l Base.url_rule = Some None /\
    Base.read h' l Base.view_args = Some None /\
    Base.read h' l Base.routing_exception = Some None /\
    Base.read h' l Base.endpoint = Some (Ok None) /\
    Base.read h' l Base.blueprint = Some (Ok None) /\
    Base.read h' l Base.blueprints = Some (Ok []).
Proof.
  eexists _, _. split; [apply new_returns|].
  split; [apply new_is_fresh|].
  unfold Base.read. rewrite lookup_insert_eq. by repeat split.
Qed.

(** C9: construction returns for every scope and header collection.  The
    object stores [http_version] and [scope] as given; when the scope has
    no ["server"] entry the server is [None], and when no header is named
    [Remote-Addr] the remote address is [None]. *)
Theorem init_tolerates_missing_server_and_remote_addr :
  exists self,
    Base.__init__ method scheme path query_string headers root_path
      http_version scope = Ok self /\
    Base.http_version self = http_version /\
    Base.scope self = scope /\
    (scope !! "server" = None ->
       Werkzeug.server (Base.base self) = VNone) /\
    ((forall k v, (k, v) ∈ headers ->
        Str.lower k <> Str.lower "Remote-Addr") ->
       Werkzeug.remote_addr (Base.base self) = None).
Proof.
  exists built. split; [apply init_returns|]. repeat split.
  - intros Hs. simpl. unfold dict_get. by rewrite Hs.
  - intros Hh. simpl. by apply headers_get_absent.
Qed.

(** C5, amended: [script_root] is the [root_path] argument without its
    trailing slashes; it is the argument itself exactly when the argument
    does not end with a slash. *)
Theorem script_root_is_stripped_root_path :
  exists self,
    Base.__init__ method scheme path query_string headers root_path
      http_version scope = Ok self /\
    Base.script_root self = Ok (Str.rstrip "/" root_path) /\
    (Base.script_root self = Ok root_path <->
     Str.endswith "/" root_path = false).
Proof.
  exists built. split; [apply init_returns|]. split; [done|].
  unfold Base.script_root. simpl. split.
  - intros [= Heq]. rewrite <- Heq. apply rstrip_endswith.
  - intros Hno. change (@mret result _ string) with (@Ok string).
    f_equal. by apply rstrip_fixed.
Qed.

(** C7: two requests constructed from the same arguments are distinct
    objects: after the resolver has assigned a rule and view arguments to
    the first, the first reads the rule back and the second is still
    unmatched. *)
Theorem requests_are_independent (r : Routing.QuartRule)
    (args : Base.ViewArgs) :
  exists l1 h1 l2 h2,
    Base.new h method scheme path query_string headers root_path
      http_version scope = Ok (l1, h1) /\
    Base.new h1 method scheme path query_string headers root_path
      http_version scope = Ok (l2, h2) /\
    l1 <> l2 /\
    h2 !! l1 = h2 !! l2 /\
    let h3 := Base.resolver_match l1 r args h2 in
    Base.read h3 l1 Base.url_rule = Some (Some r) /\
    Base.read h3 l1 Base.view_args = Some (Some args) /\
    h3 !! l2 = h2 !! l2 /\
    Base.read h3 l2 Base.url_rule = Some None /\
    Base.read h3 l2 Base.view_args = Some None /\
    Base.read h3 l2 Base.endpoint = Some (Ok None) /\
    Base.read h3 l2 Base.blueprint = Some (Ok None) /\
    Base.read h3 l2 Base.blueprints = Some (Ok []).
Proof.
  set (l1 := fresh (dom h)).
  set (h1 := <[l1 := built]> h).
  set (l2 := fresh (dom h1)).
  set (h2 := <[l2 := built]> h1).
  assert (Hne : l1 <> l2).
  { intros Heq. pose proof (new_is_fresh h1) as Hf. fold l2 in Hf.
    rewrite <- Heq in Hf. unfold h1 in Hf.
    by rewrite lookup_insert_eq in Hf. }
  assert (H1 : h2 !! l1 = Some built).
  { unfold h2. rewrite lookup_insert_ne by done.
    unfold h1. by rewrite lookup_insert_eq. }
  assert (H2 : h2 !! l2 = Some built).
  { unfold h2. by rewrite lookup_insert_eq. }
  exists l1, h1, l2, h2.
  split; [apply new_returns|]. split; [apply new_returns|].
  split; [done|]. split; [by rewrite H1, H2|].
  intros h3. unfold h3, Base.resolver_match.
  rewrite !(read_alter_same _ _ _ _ _ H1).
  rewrite !(read_alter_other _ _ _ _ _ Hne).
  rewrite lookup_alter_ne by done.
  unfold Base.read. rewrite H2. by repeat split.
Qed.

End Construction.

Section Resolved.

Variable h : Base.store.
Variables method scheme path : string.
Variable query_string : list Byte.byte.
Variable headers : Werkzeug.Headers.
Variables root_path http_version : string.
Variable scope : Base.WWWScope.

(** C3: once the resolver has assigned a rule with endpoint
    ["admin.users.list"], [endpoint] is that string, [blueprint] is
    ["admin.users"] and [blueprints] is [["admin.users"; "admin"]], from
    the current blueprint to the root; with a rule of endpoint ["index"],
    [blueprint] is absent and [blueprints] is empty. *)
Theorem resolved_endpoint_examples (r_list r_index : Routing.QuartRule)
    (args : Base.ViewArgs)
    (Hlist : Routing.endpoint r_list = "admin.users.list")
    (Hindex : Routing.endpoint r_index = "index") :
  exists l h',
    Base.new h method scheme path query_string headers root_path
      http_version scope = Ok (l, h') /\
    (let h1 := Base.resolver_match l r_list args h' in
     Base.read h1 l Base.endpoint = Some (Ok (Some "admin.users.list")) /\
     Base.read h1 l Base.blueprint = Some (Ok (Some "admin.users")) /\
     Base.read h1 l Base.blueprints = Some (Ok ["admin.users"; "admin"])) /\
    (let h2 := Base.resolver_match l r_index args h' in
     Base.read h2 l Base.endpoint = Some (Ok (Some "index")) /\
     Base.read h2 l Base.blueprint = Some (Ok None) /\
     Base.read h2 l Base.blueprints = Some (Ok [])).
Proof.
  eexists _, _. split; [apply new_returns|].
  split; intros hr; unfold hr, Base.resolver_match;
    rewrite !(read_alter_same _ _ _ _ _ (lookup_insert_eq _ _ _));
    unfold Base.blueprints, Base.blueprint, Base.endpoint, Base.url_rule;
    simpl; [rewrite Hlist | rewrite Hindex]; by repeat split.
Qed.

End Resolved.

Lemma resolved_endpoint_examples_witness :
  (Routing.endpoint Fixtures.rule_list = "admin.users.list" /\
   Routing.endpoint Fixtures.rule_index = "index") /\
  exists l h',
    Base.new ∅ "get" "http" "/" [] Fixtures.headers_host EmptyString "1.1"
      Fixtures.scope_bare = Ok (l, h') /\
    (let h1 := Base.resolver_match l Fixtures.rule_list Fixtures.user_args h' in
     Base.read h1 l Base.endpoint = Some (Ok (Some "admin.users.list")) /\
     Base.read h1 l Base.blueprint = Some (Ok (Some "admin.users")) /\
     Base.read h1 l Base.blueprints = Some (Ok ["admin.users"; "admin"])) /\
    (let h2 := Base.resolver_match l Fixtures.rule_index Fixtures.user_args h' in
     Base.read h2 l Base.endpoint = Some (Ok (Some "index")) /\
     Base.read h2 l Base.blueprint = Some (Ok None) /\
     Base.read h2 l Base.blueprints = Some (Ok [])).
Proof.
  split; [split; reflexivity|].
  apply (resolved_endpoint_examples ∅ "get" "http" "/" [] Fixtures.headers_host
           EmptyString "1.1" Fixtures.scope_bare Fixtures.rule_list Fixtures.rule_index
           Fixtures.user_args); reflexivity.
Defined.

Lemma init_tolerates_missing_server_and_remote_addr_witness :
  (Fixtures.scope_bare !! "server" = None /\
   (forall k v, (k, v) ∈ Fixtures.headers_host ->
      Str.lower k <> Str.lower "Remote-Addr")) /\
  exists self,
    Base.__init__ "get" "http" "/" [] Fixtures.headers_host EmptyString "1.1"
      Fixtures.scope_bare = Ok self /\
    Base.http_version self = "1.1" /\
    Base.scope self = Fixtures.scope_bare /\
    Werkzeug.server (Base.base self) = VNone /\
    Werkzeug.remote_addr (Base.base self) = None.
Proof.
  assert (Hs : Fixtures.scope_bare !! "server" = None) by reflexivity.
  assert (Hh : forall k v, (k, v) ∈ Fixtures.headers_host ->
                 Str.lower k <> Str.lower "Remote-Addr").
  { intros k v Hin. apply elem_of_cons in Hin as [[= -> ->]|Hin].
    - discriminate.
    - by apply elem_of_nil in Hin. }
  split; [by split|].
  destruct (init_tolerates_missing_server_and_remote_addr
              "get" "http" "/" [] Fixtures.headers_host EmptyString "1.1"
              Fixtures.scope_bare)
    as (self & Hinit & Hv & Hsc & Hserver & Hremote).
  exists self. repeat split; auto.
Defined.

(** C5 as stated fails: a root path that ends with a slash is stored
    without it, so [script_root] differs from the argument. *)
Lemma script_root_drops_trailing_slash :
  exists self,
    Base.__init__ "get" "http" "/" [] Fixtures.headers_host "/api/" "1.1"
      Fixtures.scope_bare = Ok self /\
    Base.script_root self = Ok "/api" /\
    Base.script_root self <> Ok "/api/".
Proof.
  eexists. split; [reflexivity|]. split; [reflexivity|]. discriminate.
Qed.

Example script_root_empty :
  Base.script_root Fixtures.request_plain = Ok EmptyString.
Proof. reflexivity. Qed.

Example script_root_kept :
  (Base.script_root <$>
     match Base.__init__ "get" "http" "/" [] [] "/api" "1.1" ∅ with
     | Ok self => Some self
     | Raise _ => None
     end) = Some (Ok "/api").
Proof. reflexivity. Qed.

(** * Further properties of the request object *)

(** ** [blueprint] read backwards *)

Lemma rcut_None_inv c s : Str.rcut c s = None -> Str.contains c s = false.
Proof.
  intros H. destruct (Str.contains c s) eqn:Hc; [|done].
  destruct (rcut_is_Some _ _ Hc) as (? & ? & E). congruence.
Qed.

(** X1: [blueprint] returns the name [b] exactly when a rule is matched
    whose endpoint is [b], a dot and a dot-free last segment. *)
Theorem blueprint_present_iff self b :
  Base.blueprint self = Ok (Some b) <->
  exists r post,
    Base.url_rule self = Some r /\
    Routing.endpoint r = b +:+ "." +:+ post /\
    Str.contains "." post = false.
Proof.
  split.
  - destruct (Base.url_rule self) as [r|] eqn:Hr.
    + rewrite (blueprint_matched _ _ Hr).
      destruct (Str.rcut "." (Routing.endpoint r)) as [[pre post]|] eqn:E;
        [|discriminate].
      intros [= <-]. exists r, post.
      destruct (rcut_Some _ _ _ _ E) as [He Hp]. by rewrite He.
    + by rewrite (blueprint_unmatched _ Hr).
  - intros (r & post & Hr & He & Hp).
    by apply (blueprint_of_decomposition self r b post).
Qed.

(** X2: [blueprint] is absent exactly when no rule is matched or the
    matched rule's endpoint has no dot. *)
Theorem blueprint_absent_iff self :
  Base.blueprint self = Ok None <->
  Base.url_rule self = None \/
  exists r, Base.url_rule self = Some r /\
            Str.contains "." (Routing.endpoint r) = false.
Proof.
  split.
  - destruct (Base.url_rule self) as [r|] eqn:Hr; [|by left].
    rewrite (blueprint_matched _ _ Hr).
    destruct (Str.rcut "." (Routing.endpoint r)) as [[pre post]|] eqn:E;
      [discriminate|].
    intros _. right. exists r. split; [done|]. by apply rcut_None_inv.
  - intros [Hr|(r & Hr & Hc)].
    + by apply blueprint_unmatched.
    + rewrite (blueprint_matched _ _ Hr). by rewrite (rcut_None _ _ Hc).
Qed.

(** ** [max_content_length] and the configuration *)

(** X3: [max_content_length] raises exactly when an application is
    current and its configuration has no [MAX_CONTENT_LENGTH] entry, and
    the exception is then the [KeyError] of that key. *)
Theorem max_content_length_raises_iff (current_app : Globals.current_app)
    self e :
  Base.max_content_length current_app self = Raise e <->
  e = KeyError "MAX_CONTENT_LENGTH" /\
  exists app, current_app = Some app /\
              Globals.config app !! "MAX_CONTENT_LENGTH" = None.
Proof.
  unfold Base.max_content_length, dict_getitem.
  destruct current_app as [app|].
  - destruct (Globals.config app !! "MAX_CONTENT_LENGTH") as [v|] eqn:Hv.
    + split; [discriminate|]. intros (_ & app' & [= <-] & Hn). congruence.
    + split.
      * intros [= <-]. split; [done|]. by exists app.
      * by intros [-> _].
  - split; [discriminate|]. by intros (_ & app & [=] & _).
Qed.

(** X4: a [None] from [max_content_length] does not tell whether an
    application is current: it is returned without one, and with one whose
    configured value is [None], and in no other case. *)
Theorem max_content_length_none_iff (current_app : Globals.current_app) self :
  Base.max_content_length current_app self = Ok VNone <->
  current_app = None \/
  exists app, current_app = Some app /\
              Globals.config app !! "MAX_CONTENT_LENGTH" = Some VNone.
Proof.
  unfold Base.max_content_length, dict_getitem.
  destruct current_app as [app|].
  - destruct (Globals.config app !! "MAX_CONTENT_LENGTH") as [v|] eqn:Hv.
    + split.
      * intros [= ->]. right. by exists app.
      * intros [[=]|(app' & [= <-] & Hn)]. congruence.
    + split; [discriminate|]. intros [[=]|(app' & [= <-] & Hn)]. congruence.
  - split; [by left|done].
Qed.

(** ** The shape of [blueprints] *)

Lemma str_app_assoc (a b c : string) : (a +:+ b) +:+ c = a +:+ (b +:+ c).
Proof.
  induction a as [|x a IH]; [done|].
  change (String x ((a +:+ b) +:+ c) = String x (a +:+ (b +:+ c))).
  by f_equal.
Qed.

Lemma count_app c (a b : string) :
  Str.count c (a +:+ b) = Str.count c a + Str.count c b.
Proof. induction a as [|x a IH]; simpl; [done|]. rewrite IH. lia. Qed.

Lemma str_length_app (a b : string) :
  String.length (a +:+ b) = String.length a + String.length b.
Proof. induction a as [|x a IH]; simpl; [done|]. by rewrite IH. Qed.

Lemma count_absent c s : Str.contains c s = false -> Str.count c s = 0.
Proof.
  induction s as [|a s IH]; simpl; [done|].
  destruct (Ascii.eqb a c); [discriminate|]. intros H. by rewrite IH.
Qed.

Lemma count_rcut c s pre post :
  Str.rcut c s = Some (pre, post) -> Str.count c s = S (Str.count c pre).
Proof.
  intros E. destruct (rcut_Some _ _ _ _ E) as [-> Hpost].
  rewrite count_app. simpl. rewrite Ascii.eqb_refl, (count_absent _ _ Hpost).
  lia.
Qed.

Lemma rpartition_rcut c s pre post :
  Str.rcut c s = Some (pre, post) -> (Str.rpartition c s).1.1 = pre.
Proof. intros E. unfold Str.rpartition. by rewrite E. Qed.

(** Induction on names along the splitter's recursion. *)
Lemma split_blueprint_path_ind (P : string -> Prop) :
  (forall name, Str.contains "." name = false -> P name) ->
  (forall pre post, Str.contains "." post = false ->
     P pre -> P (pre +:+ String "." post)) ->
  forall name, P name.
Proof.
  intros Hleaf Hstep name.
  remember (String.length name) as n eqn:Hn. revert name Hn.
  induction n as [n IH] using lt_wf_ind. intros name ->.
  destruct (Str.contains "." name) eqn:Hc; [|by apply Hleaf].
  destruct (rcut_is_Some _ _ Hc) as (pre & post & E).
  destruct (rcut_Some _ _ _ _ E) as [-> Hpost].
  apply Hstep; [done|]. eapply IH; [|done].
  rewrite str_length_app. simpl. lia.
Qed.

Lemma split_blueprint_path_step pre post :
  Str.contains "." post = false ->
  Helpers._split_blueprint_path (pre +:+ String "." post)
  = (pre +:+ String "." post) :: Helpers._split_blueprint_path pre.
Proof.
  intros Hpost. rewrite split_blueprint_path_dot by apply contains_app.
  by rewrite (rpartition_rcut _ _ _ _ (rcut_app "." pre post Hpost)).
Qed.

Lemma split_blueprint_path_length name :
  length (Helpers._split_blueprint_path name) = S (Str.count "." name).
Proof.
  induction name as [name Hc|pre post Hpost IH] using split_blueprint_path_ind.
  - by rewrite split_blueprint_path_nodot, count_absent.
  - rewrite split_blueprint_path_step by done. simpl. rewrite IH.
    rewrite count_app. simpl. rewrite (count_absent _ _ Hpost). lia.
Qed.

Lemma split_blueprint_path_head name :
  Helpers._split_blueprint_path name !! 0 = Some name.
Proof.
  induction name as [name Hc|pre post Hpost IH] using split_blueprint_path_ind.
  - by rewrite split_blueprint_path_nodot.
  - by rewrite split_blueprint_path_step.
Qed.

Lemma split_blueprint_path_chain name :
  (forall i x y,
     Helpers._split_blueprint_path name !! i = Some x ->
     Helpers._split_blueprint_path name !! S i = Some y ->
     exists post, x = y +:+ "." +:+ post /\ Str.contains "." post = false) /\
  (forall x, last (Helpers._split_blueprint_path name) = Some x ->
     Str.contains "." x = false).
Proof.
  induction name as [name Hc|pre post Hpost [IHi IHl]]
    using split_blueprint_path_ind.
  - rewrite split_blueprint_path_nodot by done. split.
    + intros i x y _ Hy. by destruct i.
    + by intros x [= <-].
  - rewrite split_blueprint_path_step by done. split.
    + intros [|i] x y Hx Hy; simpl in Hx, Hy.
      * injection Hx as <-. rewrite split_blueprint_path_head in Hy.
        injection Hy as <-. by exists post.
      * by apply (IHi i).
    + intros x Hx. apply IHl.
      pose proof (split_blueprint_path_head pre) as Hh.
      destruct (Helpers._split_blueprint_path pre) as [|z l]; [done|].
      exact Hx.
Qed.

Lemma split_blueprint_path_prefixes name x :
  x ∈ Helpers._split_blueprint_path name ->
  x = name \/ exists suffix, name = x +:+ "." +:+ suffix.
Proof.
  induction name as [name Hc|pre post Hpost IH] using split_blueprint_path_ind.
  - rewrite split_blueprint_path_nodot by done.
    intros Hx. apply list_elem_of_singleton in Hx. by left.
  - rewrite split_blueprint_path_step by done.
    intros Hx. apply elem_of_cons in Hx as [->|Hx]; [by left|].
    right. destruct (IH Hx) as [->|[suffix ->]].
    + by exists post.
    + exists (suffix +:+ "." +:+ post).
      rewrite str_app_assoc. simpl. by rewrite str_app_assoc.
Qed.

Lemma blueprints_of_blueprint self b :
  Base.blueprint self = Ok (Some b) ->
  Base.blueprints self = Ok (Helpers._split_blueprint_path b).
Proof. intros Hb. unfold Base.blueprints. by rewrite Hb. Qed.

(** X5: with a matched rule, [blueprints] has as many names as the
    endpoint has dots. *)
Theorem blueprints_length_counts_dots self r
    (Hrule : Base.url_rule self = Some r) :
  exists l, Base.blueprints self = Ok l /\
            length l = Str.count "." (Routing.endpoint r).
Proof.
  pose proof (blueprint_matched _ _ Hrule) as Hb.
  destruct (Str.rcut "." (Routing.endpoint r)) as [[pre post]|] eqn:E.
  - exists (Helpers._split_blueprint_path pre).
    split; [by apply blueprints_of_blueprint|].
    by rewrite split_blueprint_path_length, (count_rcut _ _ _ _ E).
  - exists []. unfold Base.blueprints. rewrite Hb. split; [done|].
    by rewrite (count_absent _ _ (rcut_None_inv _ _ E)).
Qed.

Lemma blueprints_length_counts_dots_witness :
  Base.url_rule (Base.set_url_rule (Some Fixtures.rule_nested)
                   Fixtures.request_plain) = Some Fixtures.rule_nested /\
  exists l,
    Base.blueprints (Base.set_url_rule (Some Fixtures.rule_nested)
                       Fixtures.request_plain) = Ok l /\
    length l = Str.count "." (Routing.endpoint Fixtures.rule_nested).
Proof.
  split; [reflexivity|].
  apply (blueprints_length_counts_dots
           (Base.set_url_rule (Some Fixtures.rule_nested) Fixtures.request_plain)
           Fixtures.rule_nested).
  reflexivity.
Defined.

(** X6: when [blueprint] is present, [blueprints] starts with it, each
    name is followed by its parent (the name without its last dotted
    segment), and the last name has no dot: the list runs from the
    current blueprint up to the root. *)
Theorem blueprints_runs_from_blueprint_to_root self b
    (Hb : Base.blueprint self = Ok (Some b)) :
  exists l,
    Base.blueprints self = Ok l /\
    l !! 0 = Some b /\
    (forall i x y, l !! i = Some x -> l !! S i = Some y ->
       exists post, x = y +:+ "." +:+ post /\ Str.contains "." post = false) /\
    (forall x, last l = Some x -> Str.contains "." x = false).
Proof.
  exists (Helpers._split_blueprint_path b).
  split; [by apply blueprints_of_blueprint|].
  split; [apply split_blueprint_path_head|].
  apply split_blueprint_path_chain.
Qed.

Lemma blueprints_runs_from_blueprint_to_root_witness :
  Base.blueprint (Base.set_url_rule (Some Fixtures.rule_list)
                    Fixtures.request_plain) = Ok (Some "admin.users") /\
  exists l,
    Base.blueprints (Base.set_url_rule (Some Fixtures.rule_list)
                       Fixtures.request_plain) = Ok l /\
    l !! 0 = Some "admin.users" /\
    (forall i x y, l !! i = Some x -> l !! S i = Some y ->
       exists post, x = y +:+ "." +:+ post /\ Str.contains "." post = false) /\
    (forall x, last l = Some x -> Str.contains "." x = false).
Proof.
  split; [reflexivity|].
  apply (blueprints_runs_from_blueprint_to_root
           (Base.set_url_rule (Some Fixtures.rule_list) Fixtures.request_plain)
           "admin.users").
  reflexivity.
Defined.

(** X7: with a matched rule, every name in [blueprints] is a dotted
    prefix of the endpoint: the endpoint is that name, a dot and a rest. *)
Theorem blueprints_are_endpoint_prefixes self r
    (Hrule : Base.url_rule self = Some r) :
  exists l,
    Base.blueprints self = Ok l /\
    forall x, x ∈ l ->
      exists suffix, Routing.endpoint r = x +:+ "." +:+ suffix.
Proof.
  pose proof (blueprint_matched _ _ Hrule) as Hb.
  destruct (Str.rcut "." (Routing.endpoint r)) as [[pre post]|] eqn:E.
  - exists (Helpers._split_blueprint_path pre).
    split; [by apply blueprints_of_blueprint|].
    destruct (rcut_Some _ _ _ _ E) as [He _]. intros x Hx.
    destruct (split_blueprint_path_prefixes _ _ Hx) as [->|[suffix ->]].
    + by exists post.
    + exists (suffix +:+ "." +:+ post). rewrite He.
      rewrite str_app_assoc. simpl. by rewrite str_app_assoc.
  - exists []. unfold Base.blueprints. rewrite Hb. split; [done|].
    intros x Hx. by apply elem_of_nil in Hx.
Qed.

Lemma blueprints_are_endpoint_prefixes_witness :
  Base.url_rule (Base.set_url_rule (Some Fixtures.rule_list)
                   Fixtures.request_plain) = Some Fixtures.rule_list /\
  exists l,
    Base.blueprints (Base.set_url_rule (Some Fixtures.rule_list)
                       Fixtures.request_plain) = Ok l /\
    forall x, x ∈ l ->
      exists suffix, Routing.endpoint Fixtures.rule_list = x +:+ "." +:+ suffix.
Proof.
  split; [reflexivity|].
  apply (blueprints_are_endpoint_prefixes
           (Base.set_url_rule (Some Fixtures.rule_list) Fixtures.request_plain)
           Fixtures.rule_list).
  reflexivity.
Defined.

(** ** Assignments by the resolver, through the store *)

(** X8: after the resolver's assignment to an object of the store, the
    object reads the rule, the view arguments and the rule's endpoint
    back; its routing exception and its script root are as before, every
    other object of the store is untouched and no object is added or
    removed. *)
Theorem resolver_match_writes_one_object (h : Base.store) l self r args
    (Hl : h !! l = Some self) :
  let h' := Base.resolver_match l r args h in
  Base.read h' l Base.url_rule = Some (Some r) /\
  Base.read h' l Base.view_args = Some (Some args) /\
  Base.read h' l Base.endpoint = Some (Ok (Some (Routing.endpoint r))) /\
  Base.read h' l Base.routing_exception = Some (Base.routing_exception self) /\
  Base.read h' l Base.script_root = Some (Base.script_root self) /\
  (forall l', l' <> l -> h' !! l' = h !! l') /\
  dom h' = dom h.
Proof.
  intros h'. unfold h', Base.resolver_match.
  rewrite !(read_alter_same _ _ _ _ _ Hl). repeat split.
  - intros l' Hne. by rewrite lookup_alter_ne.
  - apply dom_alter_L.
Qed.

Lemma resolver_match_writes_one_object_witness :
  Fixtures.store_one !! 1%positive = Some Fixtures.request_plain /\
  (Base.read (Base.resolver_match 1 Fixtures.rule_list Fixtures.user_args
                Fixtures.store_one) 1%positive Base.url_rule
     = Some (Some Fixtures.rule_list) /\
   Base.read (Base.resolver_match 1 Fixtures.rule_list Fixtures.user_args
                Fixtures.store_one) 1%positive Base.view_args
     = Some (Some Fixtures.user_args) /\
   Base.read (Base.resolver_match 1 Fixtures.rule_list Fixtures.user_args
                Fixtures.store_one) 1%positive Base.endpoint
     = Some (Ok (Some (Routing.endpoint Fixtures.rule_list))) /\
   Base.read (Base.resolver_match 1 Fixtures.rule_list Fixtures.user_args
                Fixtures.store_one) 1%positive Base.routing_exception
     = Some (Base.routing_exception Fixtures.request_plain) /\
   Base.read (Base.resolver_match 1 Fixtures.rule_list Fixtures.user_args
                Fixtures.store_one) 1%positive Base.script_root
     = Some (Base.script_root Fixtures.request_plain) /\
   (forall l', l' <> 1%positive ->
      Base.resolver_match 1 Fixtures.rule_list Fixtures.user_args
        Fixtures.store_one !! l' = Fixtures.store_one !! l') /\
   dom (Base.resolver_match 1 Fixtures.rule_list Fixtures.user_args
          Fixtures.store_one) = dom Fixtures.store_one).
Proof.
  split; [reflexivity|].
  apply (resolver_match_writes_one_object Fixtures.store_one 1%positive
           Fixtures.request_plain Fixtures.rule_list Fixtures.user_args).
  reflexivity.
Defined.


(** X10: a failed match stores the error on the object and nothing
    else: the object reads the error back, stays without rule and view
    arguments if it had none, its [endpoint], [blueprint] and
    [blueprints] are as before, and every other object is untouched. *)
Theorem resolver_fail_stores_the_error (h : Base.store) l self e
    (Hl : h !! l = Some self) :
  let h' := Base.resolver_fail l e h in
  Base.read h' l Base.routing_exception = Some (Some e) /\
  Base.read h' l Base.url_rule = Some (Base.url_rule self) /\
  Base.read h' l Base.view_args = Some (Base.view_args self) /\
  Base.read h' l Base.endpoint = Some (Base.endpoint self) /\
  Base.read h' l Base.blueprint = Some (Base.blueprint self) /\
  Base.read h' l Base.blueprints = Some (Base.blueprints self) /\
  (forall l', l' <> l -> h' !! l' = h !! l').
Proof.
  intros h'. unfold h', Base.resolver_fail.
  rewrite !(read_alter_same _ _ _ _ _ Hl). repeat split.
  intros l' Hne. by rewrite lookup_alter_ne.
Qed.

Lemma resolver_fail_stores_the_error_witness :
  Fixtures.store_one !! 1%positive = Some Fixtures.request_plain /\
  (Base.read (Base.resolver_fail 1 (RoutingError "NotFound")
                Fixtures.store_one) 1%positive Base.routing_exception
     = Some (Some (RoutingError "NotFound")) /\
   Base.read (Base.resolver_fail 1 (RoutingError "NotFound")
                Fixtures.store_one) 1%positive Base.url_rule
     = Some (Base.url_rule Fixtures.request_plain) /\
   Base.read (Base.resolver_fail 1 (RoutingError "NotFound")
                Fixtures.store_one) 1%positive Base.view_args
     = Some (Base.view_args Fixtures.request_plain) /\
   Base.read (Base.resolver_fail 1 (RoutingError "NotFound")
                Fixtures.store_one) 1%positive Base.endpoint
     = Some (Base.endpoint Fixtures.request_plain) /\
   Base.read (Base.resolver_fail 1 (RoutingError "NotFound")
                Fixtures.store_one) 1%positive Base.blueprint
     = Some (Base.blueprint Fixtures.request_plain) /\
   Base.read (Base.resolver_fail 1 (RoutingError "NotFound")
                Fixtures.store_one) 1%positive Base.blueprints
     = Some (Base.blueprints Fixtures.request_plain) /\
   (forall l', l' <> 1%positive ->
      Base.resolver_fail 1 (RoutingError "NotFound") Fixtures.store_one !! l'
      = Fixtures.store_one !! l')).
Proof.
  split; [reflexivity|].
  apply (resolver_fail_stores_the_error Fixtures.store_one 1%positive
           Fixtures.request_plain (RoutingError "NotFound")).
  reflexivity.
Defined.

(** ** What construction stores *)

Lemma rstrip_suffix c s : exists n, s = Str.rstrip c s +:+ Str.repeat c n.
Proof.
  induction s as [|a s [n IH]]; [by exists 0|].
  cbn [Str.rstrip]. destruct (Str.rstrip c s) as [|b t] eqn:E.
  - destruct (Ascii.eqb a c) eqn:Ea.
    + apply Ascii.eqb_eq in Ea as ->. exists (S n).
      exact (f_equal (String c) IH).
    + exists n. exact (f_equal (String a) IH).
  - exists n. exact (f_equal (String a) IH).
Qed.

Lemma lstrip_prefix c s : exists n, s = Str.repeat c n +:+ Str.lstrip c s.
Proof.
  induction s as [|a s [n IH]]; [by exists 0|].
  simpl. destruct (Ascii.eqb a c) eqn:Ea.
  - apply Ascii.eqb_eq in Ea as ->. exists (S n).
    exact (f_equal (String c) IH).
  - by exists 0.
Qed.

Lemma lstrip_head c s : String.get 0 (Str.lstrip c s) <> Some c.
Proof.
  induction s as [|a s IH]; simpl; [done|].
  destruct (Ascii.eqb a c) eqn:Ea; [done|].
  simpl. intros [= ->]. by rewrite Ascii.eqb_refl in Ea.
Qed.

Lemma headers_get_first_match (h : Werkzeug.Headers) key v :
  Werkzeug.headers_get h key = Some v <->
  exists pre k post,
    h = (pre ++ (k, v) :: post)%list /\
    Str.lower k = Str.lower key /\
    forall k' v', (k', v') ∈ pre -> Str.lower k' <> Str.lower key.
Proof.
  induction h as [|[k0 v0] h IH]; simpl.
  - split; [done|]. intros (pre & k & post & Hh & _). by destruct pre.
  - destruct (String.eqb (Str.lower k0) (Str.lower key)) eqn:E.
    + apply String.eqb_eq in E. split.
      * intros [= ->]. exists [], k0, h. repeat split; [done|].
        intros k' v' Hin. by apply elem_of_nil in Hin.
      * intros (pre & k & post & Hh & Hk & Hpre).
        destruct pre as [|[k1 v1] pre]; simpl in Hh.
        -- by injection Hh as -> -> ->.
        -- injection Hh as <- <- ->.
           destruct (Hpre k0 v0); [apply elem_of_cons; auto|done].
    + apply String.eqb_neq in E. rewrite IH. split.
      * intros (pre & k & post & -> & Hk & Hpre).
        exists ((k0, v0) :: pre), k, post. repeat split; [done|].
        intros k' v' Hin. apply elem_of_cons in Hin as [[= -> ->]|Hin]; [done|].
        by apply (Hpre k' v').
      * intros (pre & k & post & Hh & Hk & Hpre).
        destruct pre as [|[k1 v1] pre]; simpl in Hh.
        -- injection Hh as <- <- ->. done.
        -- injection Hh as <- <- ->. exists pre, k, post.
           repeat split; [done|]. intros k' v' Hin.
           apply (Hpre k' v'). apply elem_of_cons. auto.
Qed.

Section Stored.

Variable h : Base.store.
Variables method scheme path : string.
Variable query_string : list Byte.byte.
Variable headers : Werkzeug.Headers.
Variables root_path http_version : string.
Variable scope : Base.WWWScope.


(** X12: the [script_root] of a constructed request never ends with a
    slash, and the [root_path] argument is that script root followed by
    slashes only. *)
Theorem script_root_has_no_trailing_slash :
  exists self s n,
    Base.__init__ method scheme path query_string headers root_path
      http_version scope = Ok self /\
    Base.script_root self = Ok s /\
    Str.endswith "/" s = false /\
    root_path = s +:+ Str.repeat "/" n.
Proof.
  destruct (rstrip_suffix "/" root_path) as [n Hn].
  eexists _, (Str.rstrip "/" root_path), n.
  split; [apply init_returns|]. split; [done|].
  split; [apply rstrip_endswith|done].
Qed.

(** X13: the path of a constructed request starts with exactly one
    slash: it is a slash and a rest that does not start with a slash, and
    the [path] argument is that rest after slashes only. *)
Theorem path_has_one_leading_slash :
  exists self rest n,
    Base.__init__ method scheme path query_string headers root_path
      http_version scope = Ok self /\
    Werkzeug.path (Base.base self) = String "/" rest /\
    String.get 0 rest <> Some "/"%char /\
    path = Str.repeat "/" n +:+ rest.
Proof.
  destruct (lstrip_prefix "/" path) as [n Hn].
  eexists _, (Str.lstrip "/" path), n.
  split; [apply init_returns|]. split; [done|].
  split; [apply lstrip_head|done].
Qed.

(** X14: the remote address of a constructed request is [v] exactly when
    the headers hold an entry named [Remote-Addr] in any letter case with
    value [v] and no entry of that name comes before it. *)
Theorem remote_addr_is_first_matching_header :
  exists self,
    Base.__init__ method scheme path query_string headers root_path
      http_version scope = Ok self /\
    forall v,
      Werkzeug.remote_addr (Base.base self) = Some v <->
      exists pre k post,
        headers = (pre ++ (k, v) :: post)%list /\
        Str.lower k = Str.lower "Remote-Addr" /\
        forall k' v', (k', v') ∈ pre ->
          Str.lower k' <> Str.lower "Remote-Addr".
Proof.
  eexists. split; [apply init_returns|].
  intros v. simpl. apply headers_get_first_match.
Qed.

End Stored.
